(** * obsidian-helix: the key-suppression interceptor and the extension
    lifecycle of [src/main.ts], as a shallow embedding.

    Strings are [string], the JavaScript [Set] of unhandled keys is a
    [gset string], plain JavaScript objects (the settings record, the
    persisted plugin data) are [gmap string JsVal], and the extension
    array that the plugin shares with the host editor lives in an explicit
    store of arrays addressed by reference. *)

From stdpp Require Import gmap strings list fin_maps.

Open Scope string_scope.
Open Scope list_scope.

(** ** JavaScript values held by the settings object *)

(** The values a settings field can hold at run time: a boolean, a string,
    or [undefined] (a property that is read but was never written). *)
Inductive JsVal : Type :=
| JUndefined
| JBool (b : bool)
| JStr (s : string).

#[global] Instance JsVal_eq_dec : EqDecision JsVal.
Proof. solve_decision. Defined.

(** JavaScript truthiness, as used by [if (value)], [!value] and
    [value ? a : b]. *)
Definition truthy (v : JsVal) : bool :=
  match v with
  | JUndefined => false
  | JBool b => b
  | JStr s => negb (bool_decide (s = ""))
  end.

(** A plain object: property name to value. *)
Abbreviation JsObj := (gmap string JsVal).

(** [obj.k]: reading a missing property gives [undefined]. *)
Definition get (obj : JsObj) (k : string) : JsVal :=
  default JUndefined (obj !! k).

(** [Object.assign(target, source)]: every own property of [source] is
    assigned to [target].  The assignment is an ordinary property write, so
    a source key ["__proto__"] reaches the prototype setter unless [target]
    has that key as an own property already; the setter ignores booleans,
    strings and [undefined], and no own property is created. *)
Definition Object_assign (target source : JsObj) : JsObj :=
  match target !! "__proto__" with
  | Some _ => source ∪ target
  | None => delete "__proto__" source ∪ target
  end.

(** ** Keyboard events and the editor view *)

Module KeyboardEvent.
Record t : Type := mk {
  key : string;
  ctrlKey : bool;
  metaKey : bool;
  altKey : bool
}.
End KeyboardEvent.

(** What the handler reads of an [EditorView]: the class list of its
    [scrollDOM]. *)
Module EditorView.
Record t : Type := mk {
  scrollDOM_classList : list string
}.
End EditorView.

(** [classList.contains(token)]. *)
Definition classList_contains (cl : list string) (token : string) : bool :=
  bool_decide (token ∈ cl).

(** The calls a handler makes on the event object, in program order. *)
Inductive EventCall : Type :=
| preventDefault
| stopPropagation.

(** ** The static suppression tables *)

Definition UNHANDLED_KEYS : gset string :=
  {[ "Backspace"; "Enter" ]}.

Module Combo.
(** A modifier is [None] when the entry leaves it out ([undefined]). *)
Record t : Type := mk {
  key : string;
  ctrl : option bool;
  meta : option bool;
  alt : option bool
}.
End Combo.

Definition UNHANDLED_COMBOS : list Combo.t :=
  [ Combo.mk "z" (Some true) None None ].

(** [combo.m === undefined || event.mKey === combo.m] *)
Definition modifier_ok (rule : option bool) (actual : bool) : bool :=
  match rule with
  | None => true
  | Some b => bool_decide (actual = b)
  end.

(** The arrow function passed to [UNHANDLED_COMBOS.some]. *)
Definition combo_matches (event : KeyboardEvent.t) (combo : Combo.t) : bool :=
  bool_decide (KeyboardEvent.key event = Combo.key combo)
  && modifier_ok (Combo.ctrl combo) (KeyboardEvent.ctrlKey event)
  && modifier_ok (Combo.meta combo) (KeyboardEvent.metaKey event)
  && modifier_ok (Combo.alt combo) (KeyboardEvent.altKey event).

Definition isUnhandledCombo (event : KeyboardEvent.t) : bool :=
  existsb (combo_matches event) UNHANDLED_COMBOS.

(** ** The keydown interceptor *)

(** The handler's result: the calls it made on the event, in order, and
    its return value. *)
Definition Handler : Type :=
  KeyboardEvent.t → EditorView.t → list EventCall * bool.

Definition keydown : Handler := λ event view,
  let isNormalOrSelect :=
    classList_contains (EditorView.scrollDOM_classList view) "cm-hx-block-cursor" in
  if negb isNormalOrSelect then ([], false)
  else if bool_decide (KeyboardEvent.key event ∈ UNHANDLED_KEYS)
          || isUnhandledCombo event
       then ([preventDefault; stopPropagation], true)
       else ([], false).

(** ** Editor extensions *)

(** The extension values the plugin builds.  [DEFAULT_EDITOR_VIEW] is
    imported from [src/logic] and only passed on, so it is an atom here;
    [helix] keeps the one configuration entry the plugin sets,
    ["editor.cursor-shape.insert"]; [domEventHandlers] keeps its keydown
    handler. *)
Inductive PrecLevel : Type := Highest | High.

Inductive Extension : Type :=
| DEFAULT_EDITOR_VIEW
| helix (cursor_shape_insert : JsVal)
| domEventHandlers (on_keydown : Handler)
| WithPrec (level : PrecLevel) (inner : Extension).

Module Prec.
Definition high : Extension → Extension := WithPrec High.
Definition highest : Extension → Extension := WithPrec Highest.
End Prec.

(** The precedence an entry of the extension array was registered with
    ([None]: not wrapped by [Prec]). *)
Definition prec_of (e : Extension) : option PrecLevel :=
  match e with
  | WithPrec level _ => Some level
  | _ => None
  end.

Definition is_highest (e : Extension) : bool :=
  match prec_of e with
  | Some Highest => true
  | _ => false
  end.

(** ** The plugin object and the host *)

(** Calls into the host application, in program order.
    [saveData_undefined] is [saveData] called with [undefined]. *)
Inductive HostCall : Type :=
| loadData
| saveData (obj : JsObj)
| saveData_undefined
| updateOptions
| Notice (text : string)
| addSettingTab
| registerEditorExtension (ref : nat)
| addCommand (id name : string).

Definition is_saveData (c : HostCall) : bool :=
  match c with
  | saveData _ | saveData_undefined => true
  | _ => false
  end.

(** Arrays are objects: [arrays] is the store, a reference is an index
    into it.  [settings] and [extensions] are the two fields of the
    plugin instance, [None] while still unassigned.  [data] is the
    persisted plugin data as [loadData] returns it ([None]: [null],
    nothing saved yet).  [host_extensions] are the array references the
    host editor received; [calls] is the log of host calls. *)
Record Plugin : Type := mkPlugin {
  settings : option JsObj;
  extensions : option nat;
  arrays : list (list Extension);
  data : option JsObj;
  host_extensions : list nat;
  calls : list HostCall
}.

Definition with_settings (s : option JsObj) (p : Plugin) : Plugin :=
  mkPlugin s (extensions p) (arrays p) (data p) (host_extensions p) (calls p).
Definition with_extensions (r : option nat) (p : Plugin) : Plugin :=
  mkPlugin (settings p) r (arrays p) (data p) (host_extensions p) (calls p).
Definition with_arrays (a : list (list Extension)) (p : Plugin) : Plugin :=
  mkPlugin (settings p) (extensions p) a (data p) (host_extensions p) (calls p).
Definition with_data (d : option JsObj) (p : Plugin) : Plugin :=
  mkPlugin (settings p) (extensions p) (arrays p) d (host_extensions p) (calls p).
Definition with_host_extensions (h : list nat) (p : Plugin) : Plugin :=
  mkPlugin (settings p) (extensions p) (arrays p) (data p) h (calls p).
Definition with_calls (c : list HostCall) (p : Plugin) : Plugin :=
  mkPlugin (settings p) (extensions p) (arrays p) (data p) (host_extensions p) c.

(** Methods run in a state monad over [Plugin]; [None] is a thrown
    [TypeError] (a property access on [undefined]).  Every [await] in the
    source is on a call that completes before the next statement, so the
    methods are sequential. *)
Definition M (A : Type) : Type := Plugin → option (A * Plugin).

Definition ret {A} (a : A) : M A := λ p, Some (a, p).
Definition bind {A B} (m : M A) (k : A → M B) : M B :=
  λ p, match m p with
       | Some (a, p') => k a p'
       | None => None
       end.
Definition throw {A} : M A := λ _, None.
Definition modify (f : Plugin → Plugin) : M unit := λ p, Some (tt, f p).
Definition gets {A} (f : Plugin → A) : M A := λ p, Some (f p, p).

Notation "'let*' x ':=' m 'in' k" := (bind m (λ x, k))
  (at level 10, x name, m at level 100, k at level 200,
   format "'[v' 'let*'  x  :=  m  'in'  '/' k ']'").
Notation "m >> k" := (bind m (λ _, k))
  (at level 100, right associativity,
   format "'[v' m  >>  '/' k ']'").

Definition when (b : bool) (m : M unit) : M unit :=
  if b then m else ret tt.

Definition host (c : HostCall) : M unit :=
  modify (λ p, with_calls (calls p ++ [c]) p).

(** [this.settings], about to be dereferenced. *)
Definition this_settings : M JsObj :=
  let* o := gets settings in
  match o with Some s => ret s | None => throw end.

(** [this.settings.k = v] *)
Definition set_setting (k : string) (v : JsVal) : M unit :=
  let* s := this_settings in
  modify (with_settings (Some (<[k := v]> s))).

(** [this.settings.k] *)
Definition read_setting (k : string) : M JsVal :=
  let* s := this_settings in
  ret (get s k).

(** [this.extensions], about to be dereferenced. *)
Definition this_extensions : M nat :=
  let* o := gets extensions in
  match o with Some r => ret r | None => throw end.

(** The array a reference points to. *)
Definition deref (r : nat) : M (list Extension) :=
  let* a := gets arrays in
  match a !! r with Some l => ret l | None => throw end.

(** [this.extensions.length = 0]: the array object is emptied in place. *)
Definition extensions_clear : M unit :=
  let* r := this_extensions in
  let* _ := deref r in
  modify (λ p, with_arrays (<[r := []]> (arrays p)) p).

(** [this.extensions.push(e)]: appended in place. *)
Definition extensions_push (e : Extension) : M unit :=
  let* r := this_extensions in
  let* l := deref r in
  modify (λ p, with_arrays (<[r := l ++ [e]]> (arrays p)) p).

(** [this.extensions = []]: a fresh array object is allocated and the field
    is pointed at it. *)
Definition extensions_new : M unit :=
  modify (λ p, with_extensions (Some (length (arrays p)))
                 (with_arrays (arrays p ++ [[]]) p)).

(** ** Persistence *)

(** The host keeps plugin data as JSON text; a property whose value is
    [undefined] is not written. *)
Definition JSON_roundtrip (obj : JsObj) : JsObj :=
  filter (λ kv, kv.2 ≠ JUndefined) obj.

(** [this.saveData(obj)] *)
Definition host_saveData (obj : JsObj) : M unit :=
  host (saveData obj) >>
  modify (with_data (Some (JSON_roundtrip obj))).

(** [this.loadData()] *)
Definition host_loadData : M (option JsObj) :=
  host loadData >>
  gets data.

(** [Object.assign] skips a [null] source. *)
Definition assign_source (target : JsObj) (source : option JsObj) : JsObj :=
  match source with
  | Some src => Object_assign target src
  | None => target
  end.

(** [saveSettings] hands whatever the [settings] field holds to
    [saveData].  While the field is unassigned that is [undefined], for
    which JSON has no text: the call goes through and leaves nothing for
    [loadData] to return. *)
Definition saveSettings : M unit :=
  let* o := gets settings in
  match o with
  | Some s => host_saveData s
  | None => host saveData_undefined >> modify (with_data None)
  end.

Definition ENABLE : string := "enableHelixKeybindings".
Definition CURSOR : string := "cursorInInsertMode".

(** ** [setEnabled] *)

Definition setEnabled (value : JsVal) (reload print : bool) : M unit :=
  set_setting ENABLE value >>
  extensions_clear >>
  when (truthy value) (
    extensions_push (Prec.high DEFAULT_EDITOR_VIEW) >>
    let* c := read_setting CURSOR in
    extensions_push (Prec.high (helix c)) >>
    extensions_push (Prec.highest (domEventHandlers keydown))
  ) >>
  saveSettings >>
  when reload (host updateOptions) >>
  when print (
    let msg := if truthy value then "Enabled" else "Disabled" in
    host (Notice (msg +:+ " Helix keybindings"))
  ).

(** [reload()]: [setEnabled] with its default flags, [reload = true] and
    [print = false]. *)
Definition reload : M unit :=
  let* v := read_setting ENABLE in
  setEnabled v true false.

(** The callback of the "toggle-keybindings" command. *)
Definition toggle_command : M unit :=
  let* v := read_setting ENABLE in
  setEnabled (JBool (negb (truthy v))) true true.

(** The settings tab: [onChange] of the toggle and of the dropdown. *)
Definition toggle_onChange (value : bool) : M unit :=
  setEnabled (JBool value) true false.

Definition dropdown_onChange (value : string) : M unit :=
  if bool_decide (value = "block") || bool_decide (value = "bar") then
    set_setting CURSOR (JStr value) >>
    saveSettings >>
    reload
  else ret tt.

Section WithDefaults.

(** [DEFAULT_SETTINGS] is imported from [src/logic]. *)
Variable DEFAULT_SETTINGS : JsObj.

Definition loadSettings : M unit :=
  let* d := host_loadData in
  modify (with_settings
    (Some (assign_source (assign_source ∅ (Some DEFAULT_SETTINGS)) d))).

Definition onload : M unit :=
  loadSettings >>
  extensions_new >>
  host addSettingTab >>
  let* v := read_setting ENABLE in
  setEnabled v false false >>
  let* r := this_extensions in
  host (registerEditorExtension r) >>
  modify (λ p, with_host_extensions (host_extensions p ++ [r]) p) >>
  host (addCommand "toggle-keybindings" "Toggle helix mode").

End WithDefaults.

(** The array contents [setEnabled] builds for a truthy [value]. *)
Definition helix_extensions (cursor : JsVal) : list Extension :=
  [ Prec.high DEFAULT_EDITOR_VIEW;
    Prec.high (helix cursor);
    Prec.highest (domEventHandlers keydown) ].

(** The calls [setEnabled] makes into the host. *)
Definition setEnabled_calls (value : JsVal) (reload print : bool) (s : JsObj)
  : list HostCall :=
  [saveData (<[ENABLE := value]> s)]
  ++ (if reload then [updateOptions] else [])
  ++ (if print
      then [Notice ((if truthy value then "Enabled" else "Disabled")
                    +:+ " Helix keybindings")]
      else []).

(** The state [setEnabled] leaves behind. *)
Definition setEnabled_post (value : JsVal) (reload print : bool)
    (s : JsObj) (r : nat) (p : Plugin) : Plugin :=
  mkPlugin (Some (<[ENABLE := value]> s)) (Some r)
    (<[r := if truthy value then helix_extensions (get s CURSOR) else []]> (arrays p))
    (Some (JSON_roundtrip (<[ENABLE := value]> s)))
    (host_extensions p)
    (calls p ++ setEnabled_calls value reload print s).

(** The mode marker the modal engine puts on [scrollDOM] in Normal and
    Select mode. *)
Definition blocking (view : EditorView.t) : Prop :=
  "cm-hx-block-cursor" ∈ EditorView.scrollDOM_classList view.

(** A suppression rule matching an event, in the words of the data model:
    the key identifiers are equal and every modifier the rule specifies
    equals the event's; a modifier the rule leaves out constrains
    nothing. *)
Definition spec_rule_matches (rule : Combo.t) (event : KeyboardEvent.t) : Prop :=
  KeyboardEvent.key event = Combo.key rule
  ∧ (∀ b, Combo.ctrl rule = Some b → KeyboardEvent.ctrlKey event = b)
  ∧ (∀ b, Combo.meta rule = Some b → KeyboardEvent.metaKey event = b)
  ∧ (∀ b, Combo.alt rule = Some b → KeyboardEvent.altKey event = b).


(** The extension set that belongs to a settings object: what the last
    [setEnabled] built for its enable flag and cursor setting. *)
Definition current_extensions (s : JsObj) : list Extension :=
  if truthy (get s ENABLE) then helix_extensions (get s CURSOR) else [].

(** Modelled from the spec: the [HelixSettings] type is declared in
    [src/logic], which is not part of the sources at hand.  A settings
    value is a flat record of exactly two fields, the boolean enable flag
    and the cursor style (kept as any string: the code accepts persisted
    values outside block and bar as they are). *)
Definition HelixSettings (obj : JsObj) : Prop :=
  ∃ (enable : bool) (cursor : string),
    obj = {[ ENABLE := JBool enable; CURSOR := JStr cursor ]}.

(** ** What can happen after [onload] *)

(** The entry points that touch the plugin once it is loaded: the methods
    themselves, the command callback and the two settings-tab controls. *)
Inductive Action : Type :=
| call_setEnabled (value : JsVal) (reload print : bool)
| call_reload
| call_saveSettings
| run_toggle_command
| change_toggle (value : bool)
| change_dropdown (value : string).

Definition perform (a : Action) : M unit :=
  match a with
  | call_setEnabled value reload print => setEnabled value reload print
  | call_reload => reload
  | call_saveSettings => saveSettings
  | run_toggle_command => toggle_command
  | change_toggle value => toggle_onChange value
  | change_dropdown value => dropdown_onChange value
  end.

Fixpoint perform_all (acts : list Action) : M unit :=
  match acts with
  | [] => ret tt
  | a :: rest => perform a >> perform_all rest
  end.

(** ** Sample inputs *)

Definition sample_settings : JsObj :=
  {[ ENABLE := JBool false; CURSOR := JStr "bar" ]}.

Definition sample_defaults : JsObj :=
  {[ ENABLE := JBool false; CURSOR := JStr "block" ]}.

(** A loaded plugin whose extension array (reference 0) still holds an
    entry from an earlier build. *)
Definition sample_plugin : Plugin :=
  mkPlugin (Some sample_settings) (Some 0) [[Prec.high DEFAULT_EDITOR_VIEW]]
    None [0] [].

Definition fresh_plugin : Plugin := mkPlugin None None [] None [] [].

Definition sample_view_normal : EditorView.t :=
  EditorView.mk ["cm-scroller"; "cm-hx-block-cursor"].

Definition sample_view_insert : EditorView.t :=
  EditorView.mk ["cm-scroller"].

Definition ctrl_z : KeyboardEvent.t := KeyboardEvent.mk "z" true false false.
Definition plain_z : KeyboardEvent.t := KeyboardEvent.mk "z" false false true.

(** ** The shared extension array *)

(** What holds of a loaded plugin between any two entry points: the
    [extensions] field points at array [r], the host holds the references
    [h], the store has [n] arrays, and array [r] holds the extension set
    of the current settings. *)
Definition shared_array_inv (r n : nat) (h : list nat) (p : Plugin) : Prop :=
  extensions p = Some r
  ∧ host_extensions p = h
  ∧ length (arrays p) = n
  ∧ ∃ s, settings p = Some s ∧ arrays p !! r = Some (current_extensions s).

(** ** Vocabulary for the behaviour of the entry points *)


(** The two values the cursor dropdown offers. *)
Definition offered_cursor (v : JsVal) : Prop :=
  v = JStr "block" ∨ v = JStr "bar".

(** No property of the object holds [undefined]: the objects JSON text
    can carry. *)
Definition all_defined (obj : JsObj) : Prop :=
  ∀ k, obj !! k ≠ Some JUndefined.

(** The persisted data is what saving the current settings writes. *)
Definition data_in_sync (p : Plugin) : Prop :=
  data p = JSON_roundtrip <$> settings p.

(** The entry points that ask [setEnabled] for no notice: everything but
    the toggle command and a direct call with [print] set. *)
Definition quiet (a : Action) : bool :=
  match a with
  | call_setEnabled _ _ print => negb print
  | run_toggle_command => false
  | _ => true
  end.

Definition is_Notice (c : HostCall) : bool :=
  match c with
  | Notice _ => true
  | _ => false
  end.

(** A loaded, enabled plugin in sync with its array. *)
Definition sample_enabled_settings : JsObj :=
  {[ ENABLE := JBool true; CURSOR := JStr "bar" ]}.

Definition sample_enabled_plugin : Plugin :=
  mkPlugin (Some sample_enabled_settings) (Some 0)
    [helix_extensions (JStr "bar")]
    (Some sample_enabled_settings) [0] [].

(** Across an entry point the cursor setting is either kept or becomes
    one of the two offered values. *)
Definition cursor_kept_or_offered (s s' : JsObj) : Prop :=
  get s' CURSOR = get s CURSOR ∨ offered_cursor (get s' CURSOR).

Definition no_Notice (made : list HostCall) : Prop :=
  Forall (λ c, is_Notice c = false) made.

(** ** Stepping through the methods *)

Lemma bind_Some {A B} (m : M A) (k : A → M B) p a p' :
  m p = Some (a, p') → bind m k p = k a p'.
Proof. intros H. unfold bind. by rewrite H. Qed.

(** Run the first statement of a sequence with the lemma that describes
    it. *)
Ltac step lem := erewrite bind_Some by (by eapply lem).

Lemma this_settings_run p s :
  settings p = Some s → this_settings p = Some (s, p).
Proof. intros H. unfold this_settings, bind, gets. by rewrite H. Qed.

Lemma set_setting_run k v p s :
  settings p = Some s →
  set_setting k v p = Some (tt, with_settings (Some (<[k := v]> s)) p).
Proof.
  intros H. unfold set_setting.
  by rewrite (bind_Some _ _ _ _ _ (this_settings_run _ _ H)).
Qed.

Lemma read_setting_run k p s :
  settings p = Some s → read_setting k p = Some (get s k, p).
Proof.
  intros H. unfold read_setting.
  by rewrite (bind_Some _ _ _ _ _ (this_settings_run _ _ H)).
Qed.

Lemma this_extensions_run p r :
  extensions p = Some r → this_extensions p = Some (r, p).
Proof. intros H. unfold this_extensions, bind, gets. by rewrite H. Qed.

Lemma deref_run p r l :
  arrays p !! r = Some l → deref r p = Some (l, p).
Proof. intros H. unfold deref, bind, gets. by rewrite H. Qed.

Lemma extensions_clear_run p r old :
  extensions p = Some r → arrays p !! r = Some old →
  extensions_clear p = Some (tt, with_arrays (<[r := []]> (arrays p)) p).
Proof.
  intros Hr Ha. unfold extensions_clear.
  rewrite (bind_Some _ _ _ _ _ (this_extensions_run _ _ Hr)).
  by rewrite (bind_Some _ _ _ _ _ (deref_run _ _ _ Ha)).
Qed.

Lemma extensions_push_run e p r l :
  extensions p = Some r → arrays p !! r = Some l →
  extensions_push e p = Some (tt, with_arrays (<[r := l ++ [e]]> (arrays p)) p).
Proof.
  intros Hr Ha. unfold extensions_push.
  rewrite (bind_Some _ _ _ _ _ (this_extensions_run _ _ Hr)).
  by rewrite (bind_Some _ _ _ _ _ (deref_run _ _ _ Ha)).
Qed.

Lemma get_insert_ne (s : JsObj) k k' v :
  k ≠ k' → get (<[k := v]> s) k' = get s k'.
Proof. intros H. unfold get. by rewrite lookup_insert_ne. Qed.

Lemma get_insert_eq (s : JsObj) k v : get (<[k := v]> s) k = v.
Proof. unfold get. by rewrite lookup_insert_eq. Qed.

Lemma ENABLE_ne_CURSOR : ENABLE ≠ CURSOR.
Proof. discriminate. Qed.

Lemma saveSettings_run p s :
  settings p = Some s →
  saveSettings p
  = Some (tt, with_data (Some (JSON_roundtrip s))
                (with_calls (calls p ++ [saveData s]) p)).
Proof.
  intros H. unfold saveSettings, bind at 1, gets. by rewrite H.
Qed.

Lemma push_all_run p s r :
  settings p = Some s → extensions p = Some r → arrays p !! r = Some [] →
  (extensions_push (Prec.high DEFAULT_EDITOR_VIEW) >>
   let* c := read_setting CURSOR in
   extensions_push (Prec.high (helix c)) >>
   extensions_push (Prec.highest (domEventHandlers keydown))) p
  = Some (tt, with_arrays (<[r := helix_extensions (get s CURSOR)]> (arrays p)) p).
Proof.
  intros Hs Hr Ha.
  assert (Hlt : r < length (arrays p)) by (by eapply lookup_lt_Some).
  destruct p as [st ex ar da he ca]; simpl in *; subst st ex.
  step extensions_push_run.
  step read_setting_run.
  erewrite bind_Some; last first.
  { eapply extensions_push_run; [done |].
    cbn. by apply list_lookup_insert_eq. }
  erewrite extensions_push_run; [| done |]; last first.
  { cbn. apply list_lookup_insert_eq. by rewrite length_insert. }
  cbn. by rewrite !list_insert_insert_eq.
Qed.

Lemma setEnabled_run value reload print p s r old :
  settings p = Some s → extensions p = Some r → arrays p !! r = Some old →
  setEnabled value reload print p
  = Some (tt, setEnabled_post value reload print s r p).
Proof.
  intros Hs Hr Ha.
  assert (Hlt : r < length (arrays p)) by (by eapply lookup_lt_Some).
  destruct p as [st ex ar da he ca]; simpl in *; subst st ex.
  unfold setEnabled, setEnabled_post, setEnabled_calls.
  step set_setting_run.
  step extensions_clear_run.
  cbn [with_arrays with_settings settings extensions arrays data
       host_extensions calls].
  erewrite bind_Some with
    (p' := mkPlugin (Some (<[ENABLE := value]> s)) (Some r)
             (<[r := if truthy value then helix_extensions (get s CURSOR) else []]> ar)
             da he ca); last first.
  { destruct (truthy value); cbn [when]; [| done].
    erewrite push_all_run; [| done | done |].
    - cbn. rewrite list_insert_insert_eq.
      by rewrite get_insert_ne by apply ENABLE_ne_CURSOR.
    - cbn. by apply list_lookup_insert_eq. }
  step saveSettings_run.
  destruct reload, print;
    unfold when, host, modify, ret, bind, with_calls, with_data; cbn;
    by rewrite <- ?app_assoc.
Qed.

(** ** The interceptor *)

Lemma modifier_ok_spec rule actual :
  modifier_ok rule actual = true ↔ ∀ b, rule = Some b → actual = b.
Proof.
  destruct rule as [b|]; simpl.
  - rewrite bool_decide_eq_true. split.
    + intros -> b' [= <-]. done.
    + intros H. by apply H.
  - split; [intros _ b [=] | done].
Qed.

Lemma combo_matches_spec event combo :
  combo_matches event combo = true ↔ spec_rule_matches combo event.
Proof.
  unfold combo_matches, spec_rule_matches.
  rewrite !andb_true_iff, bool_decide_eq_true, !modifier_ok_spec.
  tauto.
Qed.

Lemma isUnhandledCombo_spec event :
  isUnhandledCombo event = true
  ↔ ∃ combo, combo ∈ UNHANDLED_COMBOS ∧ spec_rule_matches combo event.
Proof.
  unfold isUnhandledCombo. rewrite existsb_exists.
  split; intros (combo & Hin & Hm); exists combo.
  - split; [by apply list_elem_of_In | by apply combo_matches_spec].
  - split; [by apply list_elem_of_In | by apply combo_matches_spec].
Qed.

Lemma UNHANDLED_KEYS_spec k :
  k ∈ UNHANDLED_KEYS ↔ k = "Backspace" ∨ k = "Enter".
Proof. unfold UNHANDLED_KEYS. set_solver. Qed.

Lemma keydown_blocking event view :
  blocking view →
  keydown event view
  = if bool_decide (KeyboardEvent.key event ∈ UNHANDLED_KEYS)
       || isUnhandledCombo event
    then ([preventDefault; stopPropagation], true)
    else ([], false).
Proof.
  intros Hb. unfold keydown, classList_contains.
  by rewrite (bool_decide_eq_true_2 _ Hb).
Qed.

Lemma keydown_not_blocking event view :
  ¬ blocking view → keydown event view = ([], false).
Proof.
  intros Hb. unfold keydown, classList_contains.
  by rewrite (bool_decide_eq_false_2 _ Hb).
Qed.

(** C1. The interceptor returns [true] exactly when the mode is blocking
    (the marker class is on the scroll DOM) and the key is [Backspace] or
    [Enter] or the event matches one of the configured combos; in every
    other case, in particular whenever the mode is not blocking, it
    returns [false]. *)
Theorem keydown_decision (event : KeyboardEvent.t) (view : EditorView.t) :
  ((keydown event view).2 = true
   ↔ blocking view
     ∧ (KeyboardEvent.key event ∈ UNHANDLED_KEYS
        ∨ ∃ combo, combo ∈ UNHANDLED_COMBOS ∧ spec_rule_matches combo event))
  ∧ (∀ k, k ∈ UNHANDLED_KEYS ↔ k = "Backspace" ∨ k = "Enter")
  ∧ ((keydown event view).2 = false
     ↔ ¬ (blocking view
          ∧ (KeyboardEvent.key event ∈ UNHANDLED_KEYS
             ∨ ∃ combo, combo ∈ UNHANDLED_COMBOS
                        ∧ spec_rule_matches combo event))).
Proof.
  assert (Ht : (keydown event view).2 = true
     ↔ blocking view
       ∧ (KeyboardEvent.key event ∈ UNHANDLED_KEYS
          ∨ ∃ combo, combo ∈ UNHANDLED_COMBOS ∧ spec_rule_matches combo event)).
  { rewrite <- isUnhandledCombo_spec.
    destruct (decide (blocking view)) as [Hb|Hb].
    - rewrite (keydown_blocking _ _ Hb).
      destruct (bool_decide _ || _) eqn:E; simpl.
      + apply orb_true_iff in E as [E|E].
        * apply bool_decide_eq_true in E. tauto.
        * tauto.
      + apply orb_false_iff in E as [E1 E2].
        apply bool_decide_eq_false in E1.
        split; [done |]. intros [_ [H|H]]; [done | congruence].
    - rewrite (keydown_not_blocking _ _ Hb). simpl.
      split; [done | tauto]. }
  split; [exact Ht |]. split; [apply UNHANDLED_KEYS_spec |].
  rewrite <- Ht. by destruct (keydown event view).2.
Qed.

(** C2. A combo rule matches an event exactly when the key identifiers are
    equal and every modifier the rule specifies equals the event's, the
    modifiers it leaves out being wildcards.  With the configured rule
    (key z, ctrl true): in blocking mode every event with key z and ctrl
    held is suppressed whatever alt and meta are, and every event with key
    z and ctrl not held passes. *)
Theorem combo_rule_matching :
  (∀ event combo,
     combo_matches event combo = true ↔ spec_rule_matches combo event)
  ∧ (∀ event,
       isUnhandledCombo event = true
       ↔ ∃ combo, combo ∈ UNHANDLED_COMBOS ∧ spec_rule_matches combo event)
  ∧ UNHANDLED_COMBOS = [Combo.mk "z" (Some true) None None]
  ∧ (∀ view metaKey altKey,
       blocking view →
       keydown (KeyboardEvent.mk "z" true metaKey altKey) view
       = ([preventDefault; stopPropagation], true))
  ∧ (∀ view event,
       blocking view →
       KeyboardEvent.key event = "z" →
       KeyboardEvent.ctrlKey event = false →
       keydown event view = ([], false)).
Proof.
  split; [apply combo_matches_spec |].
  split; [apply isUnhandledCombo_spec |].
  split; [reflexivity |].
  split.
  - intros view metaKey altKey Hb.
    rewrite (keydown_blocking _ _ Hb).
    by destruct metaKey, altKey.
  - intros view [k c m a] Hb Hk Hc. simpl in Hk, Hc. subst k c.
    rewrite (keydown_blocking _ _ Hb).
    by destruct m, a.
Qed.

Lemma sample_view_normal_blocking : blocking sample_view_normal.
Proof. apply list_elem_of_further, list_elem_of_here. Qed.

Lemma sample_view_insert_not_blocking : ¬ blocking sample_view_insert.
Proof. intros H. apply list_elem_of_singleton in H. discriminate H. Qed.

Lemma combo_rule_matching_witness :
  keydown (KeyboardEvent.mk "z" true true true) sample_view_normal
  = ([preventDefault; stopPropagation], true)
  ∧ keydown plain_z sample_view_normal = ([], false).
Proof.
  destruct combo_rule_matching as (_ & _ & _ & Hyes & Hno).
  split.
  - apply Hyes, sample_view_normal_blocking.
  - apply Hno; [apply sample_view_normal_blocking | reflexivity | reflexivity].
Defined.

(** C3. Fail-open: when the marker class is absent from the scroll DOM the
    interceptor returns [false] and makes no call on the event, whatever
    the event is. *)
Theorem keydown_fail_open (event : KeyboardEvent.t) (view : EditorView.t) :
  ¬ blocking view → keydown event view = ([], false).
Proof. apply keydown_not_blocking. Qed.

Lemma keydown_fail_open_witness :
  keydown ctrl_z sample_view_insert = ([], false).
Proof.
  apply (keydown_fail_open ctrl_z sample_view_insert).
  apply sample_view_insert_not_blocking.
Defined.

(** C5. When the interceptor returns [true] it has called
    [preventDefault] and then [stopPropagation] on the event, in that
    order and nothing else; when it returns [false] it has made no call. *)
Theorem keydown_side_effects (event : KeyboardEvent.t) (view : EditorView.t) :
  (keydown event view).1
  = if (keydown event view).2
    then [preventDefault; stopPropagation]
    else [].
Proof.
  unfold keydown.
  destruct (negb _); [done |].
  by destruct (bool_decide _ || _).
Qed.

(** ** [setEnabled] *)

Lemma current_extensions_insert_enable (s : JsObj) value :
  current_extensions (<[ENABLE := value]> s)
  = if truthy value then helix_extensions (get s CURSOR) else [].
Proof.
  unfold current_extensions.
  by rewrite get_insert_eq, get_insert_ne by apply ENABLE_ne_CURSOR.
Qed.

(** C4. [setEnabled value] empties the extension array and, for [true],
    refills it with exactly three entries in this order: the editor
    defaults at high precedence, the modal engine configured with the
    current [cursorInInsertMode] at high precedence, and the interceptor
    at highest precedence, the only entry of that precedence.  For [false]
    the array is left empty.  The earlier contents never survive. *)
Theorem setEnabled_extension_set (value reload print : bool)
    (p : Plugin) (s : JsObj) (r : nat) (old : list Extension) :
  settings p = Some s → extensions p = Some r → arrays p !! r = Some old →
  ∃ p' built,
    setEnabled (JBool value) reload print p = Some (tt, p')
    ∧ extensions p' = Some r
    ∧ arrays p' !! r = Some built
    ∧ built = (if value
               then [ Prec.high DEFAULT_EDITOR_VIEW;
                      Prec.high (helix (get s CURSOR));
                      Prec.highest (domEventHandlers keydown) ]
               else [])
    ∧ prec_of <$> built
      = (if value then [Some High; Some High; Some Highest] else [])
    ∧ filter (λ e, is_highest e = true) built
      = (if value then [Prec.highest (domEventHandlers keydown)] else []).
Proof.
  intros Hs Hr Ha.
  assert (Hlt : r < length (arrays p)) by (by eapply lookup_lt_Some).
  eexists _, _. split; [by eapply setEnabled_run |].
  split; [done |].
  split; [by apply list_lookup_insert_eq |].
  by destruct value.
Qed.

Lemma setEnabled_extension_set_witness :
  ∃ p' built,
    setEnabled (JBool true) true false sample_plugin = Some (tt, p')
    ∧ extensions p' = Some 0
    ∧ arrays p' !! 0 = Some built
    ∧ built = [ Prec.high DEFAULT_EDITOR_VIEW;
                Prec.high (helix (get sample_settings CURSOR));
                Prec.highest (domEventHandlers keydown) ]
    ∧ prec_of <$> built = [Some High; Some High; Some Highest]
    ∧ filter (λ e, is_highest e = true) built
      = [Prec.highest (domEventHandlers keydown)].
Proof.
  apply (setEnabled_extension_set true true false sample_plugin
           sample_settings 0 [Prec.high DEFAULT_EDITOR_VIEW]);
    reflexivity.
Defined.

(** C6. Enabling twice in a row leaves the same extension array, with the
    same contents in the same order, as enabling once. *)
Theorem setEnabled_true_idempotent (reload1 print1 reload2 print2 : bool)
    (p : Plugin) (s : JsObj) (r : nat) (old : list Extension) :
  settings p = Some s → extensions p = Some r → arrays p !! r = Some old →
  ∃ once twice,
    setEnabled (JBool true) reload1 print1 p = Some (tt, once)
    ∧ (setEnabled (JBool true) reload1 print1 >>
       setEnabled (JBool true) reload2 print2) p = Some (tt, twice)
    ∧ extensions twice = extensions once
    ∧ arrays twice = arrays once
    ∧ arrays twice !! r = Some (helix_extensions (get s CURSOR))
    ∧ settings twice = settings once.
Proof.
  intros Hs Hr Ha.
  assert (Hlt : r < length (arrays p)) by (by eapply lookup_lt_Some).
  eexists _, _. split; [by eapply setEnabled_run |].
  split.
  { step setEnabled_run.
    eapply setEnabled_run; [done | done |].
    cbn. by apply list_lookup_insert_eq. }
  cbn. rewrite list_insert_insert_eq, insert_insert_eq.
  rewrite get_insert_ne by apply ENABLE_ne_CURSOR.
  split; [done |]. split; [done |].
  split; [by apply list_lookup_insert_eq | done].
Qed.

Lemma setEnabled_true_idempotent_witness :
  ∃ once twice,
    setEnabled (JBool true) false false sample_plugin = Some (tt, once)
    ∧ (setEnabled (JBool true) false false >>
       setEnabled (JBool true) true true) sample_plugin = Some (tt, twice)
    ∧ extensions twice = extensions once
    ∧ arrays twice = arrays once
    ∧ arrays twice !! 0 = Some (helix_extensions (get sample_settings CURSOR))
    ∧ settings twice = settings once.
Proof.
  apply (setEnabled_true_idempotent false false true true sample_plugin
           sample_settings 0 [Prec.high DEFAULT_EDITOR_VIEW]);
    reflexivity.
Defined.

(** ** Persistence *)

Lemma JSON_roundtrip_defined (obj : JsObj) :
  (∀ k, obj !! k ≠ Some JUndefined) → JSON_roundtrip obj = obj.
Proof.
  intros H. unfold JSON_roundtrip. apply map_filter_id.
  intros k v Hk. simpl. intros ->. by apply (H k).
Qed.

Lemma Object_assign_fresh (target source : JsObj) :
  target !! "__proto__" = None →
  Object_assign target source = delete "__proto__" source ∪ target.
Proof. intros H. unfold Object_assign. by rewrite H. Qed.

Lemma assign_defaults (defaults : JsObj) :
  assign_source ∅ (Some defaults) = delete "__proto__" defaults.
Proof.
  unfold assign_source. rewrite Object_assign_fresh by apply lookup_empty.
  apply (right_id_L ∅ (∪)).
Qed.

Lemma assign_over_defaults (defaults obj : JsObj) :
  obj !! "__proto__" = None →
  dom (delete "__proto__" defaults) ⊆ dom obj →
  assign_source (assign_source ∅ (Some defaults)) (Some obj) = obj.
Proof.
  intros Hproto Hdom. rewrite assign_defaults. unfold assign_source.
  rewrite Object_assign_fresh by apply lookup_delete_eq.
  rewrite (delete_id _ _ Hproto).
  apply map_eq. intros k. rewrite lookup_union.
  destruct (obj !! k) as [v|] eqn:Hk.
  - by destruct (delete "__proto__" defaults !! k).
  - apply not_elem_of_dom in Hk.
    assert (Hd : k ∉ dom (delete "__proto__" defaults))
      by (intros Hin; by apply Hk, Hdom).
    apply not_elem_of_dom in Hd. by rewrite Hd.
Qed.

Lemma HelixSettings_dom obj :
  HelixSettings obj → dom obj = {[ ENABLE; CURSOR ]}.
Proof.
  intros (b & c & ->). rewrite dom_insert_L, dom_singleton_L. done.
Qed.

Lemma HelixSettings_defined obj k :
  HelixSettings obj → obj !! k ≠ Some JUndefined.
Proof.
  intros (b & c & ->). rewrite lookup_insert.
  case_decide; [done |].
  rewrite lookup_singleton. by case_decide.
Qed.

Lemma HelixSettings_no_proto obj :
  HelixSettings obj → obj !! "__proto__" = None.
Proof.
  intros (b & c & ->).
  rewrite lookup_insert_ne by discriminate.
  by rewrite lookup_singleton_ne by discriminate.
Qed.

Lemma loadSettings_run defaults q :
  loadSettings defaults q
  = Some (tt, with_settings
                (Some (assign_source (assign_source ∅ (Some defaults))
                         (data q)))
                (with_calls (calls q ++ [loadData]) q)).
Proof. reflexivity. Qed.

(** C7. Round trip: [saveSettings] on a well-formed settings value [s]
    (both fields present) persists [s], and [loadSettings] on any plugin
    state that holds the persisted record, whatever its [settings] field
    holds by then, lays the record field by field over the defaults and
    gives a settings object equal to [s].  The defaults, a constant of
    [src/logic], are only required to have no field beyond the two of a
    settings record. *)
Theorem settings_roundtrip (DEFAULT_SETTINGS s : JsObj) (p : Plugin) :
  dom DEFAULT_SETTINGS ⊆ {[ ENABLE; CURSOR ]} →
  HelixSettings s →
  settings p = Some s →
  ∃ saved,
    saveSettings p = Some (tt, saved)
    ∧ data saved = Some s
    ∧ ∀ q, data q = data saved →
        ∃ p', loadSettings DEFAULT_SETTINGS q = Some (tt, p')
              ∧ settings p' = Some s
              ∧ data p' = Some s.
Proof.
  intros Hd Hwf Hs.
  assert (Hjson : JSON_roundtrip s = s).
  { apply JSON_roundtrip_defined. intros k. by apply HelixSettings_defined. }
  eexists. split; [by apply saveSettings_run |].
  cbn. rewrite Hjson. split; [done |].
  intros q Hq. eexists. split; [apply loadSettings_run |].
  cbn. rewrite Hq. split; [| done]. f_equal.
  apply assign_over_defaults.
  - by apply HelixSettings_no_proto.
  - rewrite (HelixSettings_dom _ Hwf), dom_delete_L.
    intros k [Hin _]%elem_of_difference. by apply Hd.
Qed.

Lemma sample_settings_HelixSettings : HelixSettings sample_settings.
Proof. by exists false, "bar". Qed.

Lemma sample_defaults_dom : dom sample_defaults ⊆ {[ ENABLE; CURSOR ]}.
Proof.
  unfold sample_defaults. by rewrite dom_insert_L, dom_singleton_L.
Qed.

Lemma settings_roundtrip_witness :
  ∃ saved p',
    saveSettings sample_plugin = Some (tt, saved)
    ∧ data saved = Some sample_settings
    ∧ loadSettings sample_defaults (with_settings None saved) = Some (tt, p')
    ∧ settings p' = Some sample_settings
    ∧ data p' = Some sample_settings.
Proof.
  destruct (settings_roundtrip sample_defaults sample_settings sample_plugin)
    as (saved & Hsave & Hdata & Hload).
  - apply sample_defaults_dom.
  - apply sample_settings_HelixSettings.
  - reflexivity.
  - destruct (Hload (with_settings None saved) eq_refl)
      as (p' & Hrun & Hs & Hd).
    exists saved, p'. by split_and!.
Defined.

(** C8. Every [setEnabled value reload print] makes exactly these host
    calls, in this order: one [saveData] of the settings (whatever
    [value]), then [updateOptions] exactly when [reload] is set, then a
    notice exactly when [print] is set, reading "Enabled Helix
    keybindings" for [true] and "Disabled Helix keybindings" for
    [false]. *)
Theorem setEnabled_host_calls (value reload print : bool)
    (p : Plugin) (s : JsObj) (r : nat) (old : list Extension) :
  settings p = Some s → extensions p = Some r → arrays p !! r = Some old →
  ∃ p' made,
    setEnabled (JBool value) reload print p = Some (tt, p')
    ∧ calls p' = calls p ++ made
    ∧ made = [saveData (<[ENABLE := JBool value]> s)]
             ++ (if reload then [updateOptions] else [])
             ++ (if print
                 then [Notice (if value then "Enabled Helix keybindings"
                               else "Disabled Helix keybindings")]
                 else [])
    ∧ length (filter (λ c, is_saveData c = true) made) = 1
    ∧ (updateOptions ∈ made ↔ reload = true)
    ∧ (∀ text, Notice text ∈ made
               ↔ print = true
                 ∧ text = (if value then "Enabled Helix keybindings"
                           else "Disabled Helix keybindings"))
    ∧ data p' = Some (JSON_roundtrip (<[ENABLE := JBool value]> s)).
Proof.
  intros Hs Hr Ha.
  eexists _, _. split; [by eapply setEnabled_run |].
  split; [done |].
  split; [by destruct value, reload, print |].
  split; [by destruct reload, print |].
  split.
  { destruct reload, print; cbv [setEnabled_calls app];
      rewrite ?elem_of_cons, elem_of_nil;
      intuition congruence. }
  split; [| done].
  intros text.
  destruct reload, print, value; cbv [setEnabled_calls app truthy];
    rewrite ?elem_of_cons, elem_of_nil;
    (split;
     [ intros H; repeat (destruct H as [H|H]); try discriminate H; try done;
       injection H as ->; done
     | intros [H ->]; try discriminate H;
       repeat first [left; reflexivity | right] ]).
Qed.

Lemma setEnabled_host_calls_witness :
  ∃ p' made,
    setEnabled (JBool true) false true sample_plugin = Some (tt, p')
    ∧ calls p' = calls sample_plugin ++ made
    ∧ made = [saveData (<[ENABLE := JBool true]> sample_settings)]
             ++ []
             ++ [Notice "Enabled Helix keybindings"]
    ∧ length (filter (λ c, is_saveData c = true) made) = 1
    ∧ (updateOptions ∈ made ↔ false = true)
    ∧ (∀ text, Notice text ∈ made
               ↔ true = true ∧ text = "Enabled Helix keybindings")
    ∧ data p' = Some (JSON_roundtrip (<[ENABLE := JBool true]> sample_settings)).
Proof.
  apply (setEnabled_host_calls true false true sample_plugin
           sample_settings 0 [Prec.high DEFAULT_EDITOR_VIEW]);
    reflexivity.
Defined.

(** C9. Frame condition: [setEnabled value reload print] writes
    [enableHelixKeybindings], which becomes [value], and no other field of
    the settings object; [cursorInInsertMode] in particular keeps its
    value. *)
Theorem setEnabled_settings_frame (value reload print : bool)
    (p : Plugin) (s : JsObj) (r : nat) (old : list Extension) :
  settings p = Some s → extensions p = Some r → arrays p !! r = Some old →
  ∃ p' s',
    setEnabled (JBool value) reload print p = Some (tt, p')
    ∧ settings p' = Some s'
    ∧ s' !! ENABLE = Some (JBool value)
    ∧ (∀ k, k ≠ ENABLE → s' !! k = s !! k)
    ∧ s' !! CURSOR = s !! CURSOR.
Proof.
  intros Hs Hr Ha.
  eexists _, _. split; [by eapply setEnabled_run |].
  split; [done |].
  split; [by apply lookup_insert_eq |].
  split.
  - intros k Hk. by apply lookup_insert_ne.
  - apply lookup_insert_ne, ENABLE_ne_CURSOR.
Qed.

Lemma setEnabled_settings_frame_witness :
  ∃ p' s',
    setEnabled (JBool true) true true sample_plugin = Some (tt, p')
    ∧ settings p' = Some s'
    ∧ s' !! ENABLE = Some (JBool true)
    ∧ (∀ k, k ≠ ENABLE → s' !! k = sample_settings !! k)
    ∧ s' !! CURSOR = sample_settings !! CURSOR.
Proof.
  apply (setEnabled_settings_frame true true true sample_plugin
           sample_settings 0 [Prec.high DEFAULT_EDITOR_VIEW]);
    reflexivity.
Defined.

(** ** The extension array across the plugin's life *)

Lemma setEnabled_inv value reload print p s r old :
  settings p = Some s → extensions p = Some r → arrays p !! r = Some old →
  ∃ p', setEnabled value reload print p = Some (tt, p')
        ∧ shared_array_inv r (length (arrays p)) (host_extensions p) p'.
Proof.
  intros Hs Hr Ha.
  assert (Hlt : r < length (arrays p)) by (by eapply lookup_lt_Some).
  eexists. split; [by eapply setEnabled_run |].
  split; [done |]. split; [done |].
  split; [cbn; by rewrite length_insert |].
  eexists. split; [done |]. cbn.
  rewrite current_extensions_insert_enable.
  by apply list_lookup_insert_eq.
Qed.

Lemma reload_inv p s r old :
  settings p = Some s → extensions p = Some r → arrays p !! r = Some old →
  ∃ p', reload p = Some (tt, p')
        ∧ shared_array_inv r (length (arrays p)) (host_extensions p) p'.
Proof.
  intros Hs Hr Ha. unfold reload.
  step read_setting_run.
  by eapply setEnabled_inv.
Qed.

Lemma dropdown_onChange_inv value p r n h :
  shared_array_inv r n h p →
  ∃ p', dropdown_onChange value p = Some (tt, p') ∧ shared_array_inv r n h p'.
Proof.
  intros Hinv. unfold dropdown_onChange.
  destruct (bool_decide _ || bool_decide _); [| by eexists].
  destruct Hinv as (Hr & Hh & Hn & s & Hs & Ha).
  step set_setting_run.
  step saveSettings_run.
  destruct p as [st ex ar da he ca]; simpl in *; subst.
  by eapply (reload_inv (mkPlugin _ _ _ _ _ _)).
Qed.

Lemma perform_inv a p r n h :
  shared_array_inv r n h p →
  ∃ p', perform a p = Some (tt, p') ∧ shared_array_inv r n h p'.
Proof.
  intros Hinv.
  destruct a as [value rl pr | | | | value | value]; simpl.
  - destruct Hinv as (Hr & <- & <- & s & Hs & Ha). by eapply setEnabled_inv.
  - destruct Hinv as (Hr & <- & <- & s & Hs & Ha). by eapply reload_inv.
  - destruct Hinv as (Hr & Hh & Hn & s & Hs & Ha).
    eexists. split; [by apply saveSettings_run |].
    split; [done |]. split; [done |]. split; [done |]. by exists s.
  - destruct Hinv as (Hr & <- & <- & s & Hs & Ha). unfold toggle_command.
    step read_setting_run.
    by eapply setEnabled_inv.
  - destruct Hinv as (Hr & <- & <- & s & Hs & Ha). by eapply setEnabled_inv.
  - by apply dropdown_onChange_inv.
Qed.

Lemma perform_all_inv acts p r n h :
  shared_array_inv r n h p →
  ∃ p', perform_all acts p = Some (tt, p') ∧ shared_array_inv r n h p'.
Proof.
  revert p. induction acts as [| a rest IH]; intros p Hinv.
  - by exists p.
  - destruct (perform_inv a p r n h Hinv) as (p1 & Hrun & Hinv1).
    destruct (IH p1 Hinv1) as (p2 & Hrest & Hinv2).
    exists p2. split; [| done].
    simpl. by rewrite (bind_Some _ _ _ _ _ Hrun).
Qed.

Lemma onload_inv defaults p :
  ∃ p', onload defaults p = Some (tt, p')
        ∧ shared_array_inv (length (arrays p)) (S (length (arrays p)))
            (host_extensions p ++ [length (arrays p)]) p'.
Proof.
  destruct p as [st ex ar da he ca]. unfold onload. cbn [arrays host_extensions].
  erewrite bind_Some by reflexivity.
  erewrite bind_Some by reflexivity.
  erewrite bind_Some by reflexivity.
  step read_setting_run.
  set (s := assign_source (assign_source ∅ (Some defaults)) da).
  cbn [with_calls with_extensions with_arrays with_settings settings
       extensions arrays data host_extensions calls].
  erewrite bind_Some; last first.
  { eapply setEnabled_run; [done | done |].
    cbn. apply list_lookup_middle. done. }
  eexists. split; [reflexivity |].
  split; [done |]. split; [done |].
  split; [cbn; by rewrite length_insert, length_app, Nat.add_comm |].
  eexists. split; [done |]. cbn.
  rewrite current_extensions_insert_enable.
  apply list_lookup_insert_eq. rewrite length_app. simpl. lia.
Qed.

(** C10. The array object created in [onload] and handed to the host by
    [registerEditorExtension] is the one the [extensions] field points at
    ever after: no entry point reassigns the field or allocates another
    array, every rebuild happens inside that array, and so the reference
    the host holds always shows the extension set of the current
    settings, through any sequence of enable and disable transitions. *)
Theorem extensions_array_shared
    (DEFAULT_SETTINGS : JsObj) (p : Plugin) (acts : list Action) :
  ∃ r loaded final s,
    onload DEFAULT_SETTINGS p = Some (tt, loaded)
    ∧ extensions loaded = Some r
    ∧ host_extensions loaded = host_extensions p ++ [r]
    ∧ perform_all acts loaded = Some (tt, final)
    ∧ extensions final = Some r
    ∧ host_extensions final = host_extensions loaded
    ∧ length (arrays final) = length (arrays loaded)
    ∧ settings final = Some s
    ∧ arrays final !! r = Some (current_extensions s).
Proof.
  destruct (onload_inv DEFAULT_SETTINGS p)
    as (loaded & Hload & Hr & Hh & Hn & s0 & Hs0 & Ha0).
  destruct (perform_all_inv acts loaded _ _ _
              (conj Hr (conj Hh (conj Hn (ex_intro _ s0 (conj Hs0 Ha0))))))
    as (final & Hrun & Hr' & Hh' & Hn' & s & Hs & Ha).
  exists (length (arrays p)), loaded, final, s.
  repeat split; try done; congruence.
Qed.

(** ** Worked scenarios *)

Example keydown_ctrl_z_normal :
  keydown ctrl_z sample_view_normal = ([preventDefault; stopPropagation], true).
Proof. reflexivity. Qed.

Example keydown_enter_normal :
  keydown (KeyboardEvent.mk "Enter" false false false) sample_view_normal
  = ([preventDefault; stopPropagation], true).
Proof. reflexivity. Qed.

Example keydown_letter_normal :
  keydown (KeyboardEvent.mk "j" false false false) sample_view_normal
  = ([], false).
Proof. reflexivity. Qed.

Example keydown_enter_insert :
  keydown (KeyboardEvent.mk "Enter" false false false) sample_view_insert
  = ([], false).
Proof. reflexivity. Qed.

(** A fresh plugin with nothing persisted: [onload] allocates array 0,
    leaves it empty (the default is disabled), saves once and hands the
    array to the host without any notice or re-render. *)
Example onload_fresh :
  (λ p, (extensions p, arrays p, host_extensions p, calls p))
    <$> (snd <$> onload sample_defaults fresh_plugin)
  = Some (Some 0, [[]], [0],
          [ loadData;
            addSettingTab;
            saveData sample_defaults;
            registerEditorExtension 0;
            addCommand "toggle-keybindings" "Toggle helix mode" ]).
Proof. vm_compute. reflexivity. Qed.

(** The scenario of the specification: starting disabled, the toggle
    command enables, shows the notice and fills the array the host
    holds. *)
Example toggle_after_onload :
  (λ p, (arrays p !! 0, last (calls p), settings p))
    <$> (snd <$> (onload sample_defaults >> toggle_command) fresh_plugin)
  = Some (Some (helix_extensions (JStr "block")),
          Some (Notice "Enabled Helix keybindings"),
          Some {[ ENABLE := JBool true; CURSOR := JStr "block" ]}).
Proof. vm_compute. reflexivity. Qed.

(** Persisted data overrides the defaults field by field. *)
Example loadSettings_partial :
  settings <$> (snd <$> loadSettings sample_defaults
                  (with_data (Some {[ ENABLE := JBool true ]}) fresh_plugin))
  = Some (Some {[ ENABLE := JBool true; CURSOR := JStr "block" ]}).
Proof. vm_compute. reflexivity. Qed.

(** ** Loading the settings *)

(** [loadSettings] asks the host for the persisted data and merges field
    by field: a field of the persisted data wins, a field missing there
    falls back to the default, and with nothing persisted the settings are
    the defaults.  A key ["__proto__"] is never taken over, from neither
    side.  Nothing but the [settings] field of the plugin changes, and the
    one host call is [loadData]. *)
Theorem loadSettings_merge (DEFAULT_SETTINGS : JsObj) (p : Plugin) :
  ∃ s,
    loadSettings DEFAULT_SETTINGS p
    = Some (tt, with_settings (Some s) (with_calls (calls p ++ [loadData]) p))
    ∧ s !! "__proto__" = None
    ∧ (∀ k, k ≠ "__proto__" →
         s !! k = match data p with
                  | Some d => match d !! k with
                              | Some v => Some v
                              | None => DEFAULT_SETTINGS !! k
                              end
                  | None => DEFAULT_SETTINGS !! k
                  end)
    ∧ (data p = None → s = delete "__proto__" DEFAULT_SETTINGS).
Proof.
  eexists. split; [apply loadSettings_run |].
  rewrite assign_defaults.
  destruct (data p) as [d|]; unfold assign_source.
  - rewrite Object_assign_fresh by apply lookup_delete_eq.
    split_and!; [| | done].
    + by rewrite lookup_union, !lookup_delete_eq.
    + intros k Hk. rewrite lookup_union, !lookup_delete_ne by done.
      by destruct (d !! k), (DEFAULT_SETTINGS !! k).
  - split_and!; [apply lookup_delete_eq | | done].
    intros k Hk. by rewrite lookup_delete_ne.
Qed.

(** ** [setEnabled] once more *)

(** Of two [setEnabled] calls in a row only the second matters for the
    settings, the extension array and the persisted data: the outcome is
    that of the second call alone, the enable flag being the second value
    and the array holding the three extensions when that value is truthy
    and nothing when it is not.  Enabling and then disabling thus leaves
    the array empty. *)
Theorem setEnabled_last_wins (u v : JsVal) (rl1 pr1 rl2 pr2 : bool)
    (p : Plugin) (s : JsObj) (r : nat) (old : list Extension) :
  settings p = Some s → extensions p = Some r → arrays p !! r = Some old →
  ∃ both last,
    (setEnabled u rl1 pr1 >> setEnabled v rl2 pr2) p = Some (tt, both)
    ∧ setEnabled v rl2 pr2 p = Some (tt, last)
    ∧ settings both = settings last
    ∧ extensions both = extensions last
    ∧ arrays both = arrays last
    ∧ data both = data last
    ∧ settings both = Some (<[ENABLE := v]> s)
    ∧ extensions both = Some r
    ∧ arrays both !! r
      = Some (if truthy v
              then [ Prec.high DEFAULT_EDITOR_VIEW;
                     Prec.high (helix (get s CURSOR));
                     Prec.highest (domEventHandlers keydown) ]
              else [])
    ∧ data both = Some (JSON_roundtrip (<[ENABLE := v]> s)).
Proof.
  intros Hs Hr Ha.
  assert (Hlt : r < length (arrays p)) by (by eapply lookup_lt_Some).
  eexists _, _. split.
  { step setEnabled_run.
    eapply setEnabled_run; [done | done |].
    cbn. by apply list_lookup_insert_eq. }
  split; [by eapply setEnabled_run |].
  cbn. rewrite list_insert_insert_eq, insert_insert_eq.
  rewrite get_insert_ne by apply ENABLE_ne_CURSOR.
  split_and!; try done.
  by apply list_lookup_insert_eq.
Qed.

Lemma setEnabled_last_wins_witness :
  ∃ both last,
    (setEnabled (JBool true) true true >> setEnabled (JBool false) true false)
      sample_plugin = Some (tt, both)
    ∧ setEnabled (JBool false) true false sample_plugin = Some (tt, last)
    ∧ settings both = settings last
    ∧ extensions both = extensions last
    ∧ arrays both = arrays last
    ∧ data both = data last
    ∧ settings both = Some (<[ENABLE := JBool false]> sample_settings)
    ∧ extensions both = Some 0
    ∧ arrays both !! 0 = Some []
    ∧ data both
      = Some (JSON_roundtrip (<[ENABLE := JBool false]> sample_settings)).
Proof.
  apply (setEnabled_last_wins (JBool true) (JBool false) true true true false
           sample_plugin sample_settings 0 [Prec.high DEFAULT_EDITOR_VIEW]);
    reflexivity.
Defined.

(** Before [onload] has assigned the [settings] and [extensions] fields,
    [setEnabled] throws: it dereferences both. *)
Theorem setEnabled_unloaded_throws (value : JsVal) (rl pr : bool) (p : Plugin) :
  settings p = None ∨ extensions p = None →
  setEnabled value rl pr p = None.
Proof.
  intros H. unfold setEnabled, bind at 1.
  destruct (settings p) as [s|] eqn:Hs.
  - destruct H as [H|H]; [done |].
    rewrite (set_setting_run _ _ _ _ Hs).
    unfold bind at 1, extensions_clear, bind at 1, this_extensions, bind, gets.
    cbn. by rewrite H.
  - unfold set_setting, bind, this_settings, bind, gets. by rewrite Hs.
Qed.

Lemma setEnabled_unloaded_throws_witness :
  setEnabled (JBool true) true false fresh_plugin = None.
Proof.
  apply (setEnabled_unloaded_throws (JBool true) true false fresh_plugin).
  left. reflexivity.
Defined.

(** ** The entry points built on [setEnabled] *)

Lemma reload_run p s r old :
  settings p = Some s → extensions p = Some r → arrays p !! r = Some old →
  reload p = Some (tt, setEnabled_post (get s ENABLE) true false s r p).
Proof.
  intros Hs Hr Ha. unfold reload.
  step read_setting_run. by eapply setEnabled_run.
Qed.

Lemma toggle_command_run p s r old :
  settings p = Some s → extensions p = Some r → arrays p !! r = Some old →
  toggle_command p
  = Some (tt, setEnabled_post (JBool (negb (truthy (get s ENABLE))))
                true true s r p).
Proof.
  intros Hs Hr Ha. unfold toggle_command.
  step read_setting_run. by eapply setEnabled_run.
Qed.

Lemma insert_get_id (s : JsObj) k :
  is_Some (s !! k) → <[k := get s k]> s = s.
Proof.
  intros [v Hv]. apply insert_id. unfold get. by rewrite Hv.
Qed.

(** [reload] never changes the settings (the enable flag is written back
    as read), rebuilds the array from them, saves once and asks the host
    to re-render; it shows no notice. *)
Theorem reload_rebuilds (p : Plugin) (s : JsObj) (r : nat)
    (old : list Extension) :
  settings p = Some s → extensions p = Some r → arrays p !! r = Some old →
  is_Some (s !! ENABLE) →
  ∃ p',
    reload p = Some (tt, p')
    ∧ settings p' = Some s
    ∧ extensions p' = Some r
    ∧ arrays p' !! r = Some (current_extensions s)
    ∧ data p' = Some (JSON_roundtrip s)
    ∧ calls p' = calls p ++ [saveData s; updateOptions].
Proof.
  intros Hs Hr Ha He.
  assert (Hlt : r < length (arrays p)) by (by eapply lookup_lt_Some).
  eexists. split; [by eapply reload_run |].
  cbn. unfold setEnabled_calls. rewrite (insert_get_id _ _ He).
  repeat split; try done.
  by apply list_lookup_insert_eq.
Qed.

Lemma reload_rebuilds_witness :
  ∃ p',
    reload sample_plugin = Some (tt, p')
    ∧ settings p' = Some sample_settings
    ∧ extensions p' = Some 0
    ∧ arrays p' !! 0 = Some (current_extensions sample_settings)
    ∧ data p' = Some (JSON_roundtrip sample_settings)
    ∧ calls p' = calls sample_plugin ++ [saveData sample_settings; updateOptions].
Proof.
  apply (reload_rebuilds sample_plugin sample_settings 0
           [Prec.high DEFAULT_EDITOR_VIEW]); try reflexivity.
  by eexists.
Defined.

(** The toggle command flips the enable flag by truthiness, builds the
    array for the new state and makes three host calls: the save, the
    re-render and the notice naming the new state. *)
Theorem toggle_command_flips (p : Plugin) (s : JsObj) (r : nat)
    (old : list Extension) :
  settings p = Some s → extensions p = Some r → arrays p !! r = Some old →
  ∃ p' s',
    toggle_command p = Some (tt, p')
    ∧ settings p' = Some s'
    ∧ s' = <[ENABLE := JBool (negb (truthy (get s ENABLE)))]> s
    ∧ arrays p' !! r
      = Some (if truthy (get s ENABLE) then []
              else helix_extensions (get s CURSOR))
    ∧ calls p'
      = calls p ++ [ saveData s'; updateOptions;
                     Notice (if truthy (get s ENABLE)
                             then "Disabled Helix keybindings"
                             else "Enabled Helix keybindings") ].
Proof.
  intros Hs Hr Ha.
  assert (Hlt : r < length (arrays p)) by (by eapply lookup_lt_Some).
  eexists _, _. split; [by eapply toggle_command_run |].
  split; [done |]. split; [done |].
  split.
  - cbn. rewrite list_lookup_insert_eq by done.
    by destruct (truthy (get s ENABLE)).
  - cbn. unfold setEnabled_calls. cbn.
    by destruct (truthy (get s ENABLE)).
Qed.

Lemma toggle_command_flips_witness :
  ∃ p' s',
    toggle_command sample_plugin = Some (tt, p')
    ∧ settings p' = Some s'
    ∧ s' = <[ENABLE := JBool (negb (truthy (get sample_settings ENABLE)))]>
             sample_settings
    ∧ arrays p' !! 0
      = Some (if truthy (get sample_settings ENABLE) then []
              else helix_extensions (get sample_settings CURSOR))
    ∧ calls p'
      = calls sample_plugin
        ++ [ saveData s'; updateOptions;
             Notice (if truthy (get sample_settings ENABLE)
                     then "Disabled Helix keybindings"
                     else "Enabled Helix keybindings") ].
Proof.
  apply (toggle_command_flips sample_plugin sample_settings 0
           [Prec.high DEFAULT_EDITOR_VIEW]); reflexivity.
Defined.

(** Running the toggle command twice brings back the settings the plugin
    started from, when the enable flag was a boolean, with the array
    rebuilt for them and the settings saved. *)
Theorem toggle_command_twice (p : Plugin) (s : JsObj) (r : nat)
    (old : list Extension) (b : bool) :
  settings p = Some s → extensions p = Some r → arrays p !! r = Some old →
  s !! ENABLE = Some (JBool b) →
  ∃ p',
    (toggle_command >> toggle_command) p = Some (tt, p')
    ∧ settings p' = Some s
    ∧ extensions p' = Some r
    ∧ arrays p' !! r = Some (current_extensions s)
    ∧ data p' = Some (JSON_roundtrip s).
Proof.
  intros Hs Hr Ha He.
  assert (Hlt : r < length (arrays p)) by (by eapply lookup_lt_Some).
  assert (Hg : get s ENABLE = JBool b) by (unfold get; by rewrite He).
  eexists. split.
  { step toggle_command_run.
    eapply toggle_command_run; [done | done |].
    cbn. by apply list_lookup_insert_eq. }
  cbn. rewrite get_insert_eq, insert_insert_eq. cbn.
  rewrite Hg. cbn. rewrite negb_involutive.
  rewrite (insert_id s ENABLE (JBool b) He).
  rewrite get_insert_ne by apply ENABLE_ne_CURSOR.
  repeat split; try done.
  rewrite list_insert_insert_eq, list_lookup_insert_eq by done.
  unfold current_extensions. by rewrite Hg.
Qed.

Lemma toggle_command_twice_witness :
  ∃ p',
    (toggle_command >> toggle_command) sample_plugin = Some (tt, p')
    ∧ settings p' = Some sample_settings
    ∧ extensions p' = Some 0
    ∧ arrays p' !! 0 = Some (current_extensions sample_settings)
    ∧ data p' = Some (JSON_roundtrip sample_settings).
Proof.
  apply (toggle_command_twice sample_plugin sample_settings 0
           [Prec.high DEFAULT_EDITOR_VIEW] false); reflexivity.
Defined.

(** ** The settings tab *)

Lemma CURSOR_ne_ENABLE : CURSOR ≠ ENABLE.
Proof. discriminate. Qed.

Lemma dropdown_onChange_run value p s r old :
  value = "block" ∨ value = "bar" →
  settings p = Some s → extensions p = Some r → arrays p !! r = Some old →
  dropdown_onChange value p
  = Some (tt,
          let s1 := <[CURSOR := JStr value]> s in
          setEnabled_post (get s ENABLE) true false s1 r
            (with_data (Some (JSON_roundtrip s1))
               (with_calls (calls p ++ [saveData s1])
                  (with_settings (Some s1) p)))).
Proof.
  intros Hv Hs Hr Ha. unfold dropdown_onChange.
  replace (bool_decide (value = "block") || bool_decide (value = "bar"))
    with true by (by destruct Hv as [-> | ->]).
  step set_setting_run.
  step saveSettings_run.
  erewrite reload_run; [| done | done | done].
  cbn. by rewrite get_insert_ne by apply CURSOR_ne_ENABLE.
Qed.

(** Choosing block or bar in the dropdown stores the choice in
    [cursorInInsertMode], leaves the enable flag as it reads, rebuilds the
    array so that an enabled modal engine is configured with the new
    cursor, and saves twice (once itself, once through [reload]) before
    one re-render; no notice is shown. *)
Theorem dropdown_onChange_accepts (value : string)
    (p : Plugin) (s : JsObj) (r : nat) (old : list Extension) :
  value = "block" ∨ value = "bar" →
  settings p = Some s → extensions p = Some r → arrays p !! r = Some old →
  ∃ p' s',
    dropdown_onChange value p = Some (tt, p')
    ∧ settings p' = Some s'
    ∧ get s' CURSOR = JStr value
    ∧ get s' ENABLE = get s ENABLE
    ∧ (∀ k, k ≠ CURSOR → k ≠ ENABLE → s' !! k = s !! k)
    ∧ arrays p' !! r
      = Some (if truthy (get s ENABLE) then helix_extensions (JStr value)
              else [])
    ∧ calls p'
      = calls p ++ [ saveData (<[CURSOR := JStr value]> s);
                     saveData s'; updateOptions ].
Proof.
  intros Hv Hs Hr Ha.
  assert (Hlt : r < length (arrays p)) by (by eapply lookup_lt_Some).
  eexists _, _. split; [by eapply dropdown_onChange_run |].
  cbn. split; [done |].
  split.
  { rewrite get_insert_ne by apply ENABLE_ne_CURSOR. apply get_insert_eq. }
  split; [apply get_insert_eq |].
  split.
  { intros k Hc He. by rewrite !lookup_insert_ne. }
  split.
  - rewrite list_lookup_insert_eq by done. by rewrite get_insert_eq.
  - unfold setEnabled_calls. cbn. by rewrite <- app_assoc.
Qed.

Lemma dropdown_onChange_accepts_witness :
  ∃ p' s',
    dropdown_onChange "block" sample_enabled_plugin = Some (tt, p')
    ∧ settings p' = Some s'
    ∧ get s' CURSOR = JStr "block"
    ∧ get s' ENABLE = get sample_enabled_settings ENABLE
    ∧ (∀ k, k ≠ CURSOR → k ≠ ENABLE → s' !! k = sample_enabled_settings !! k)
    ∧ arrays p' !! 0
      = Some (if truthy (get sample_enabled_settings ENABLE)
              then helix_extensions (JStr "block") else [])
    ∧ calls p'
      = calls sample_enabled_plugin
        ++ [ saveData (<[CURSOR := JStr "block"]> sample_enabled_settings);
             saveData s'; updateOptions ].
Proof.
  apply (dropdown_onChange_accepts "block" sample_enabled_plugin
           sample_enabled_settings 0 (helix_extensions (JStr "bar")));
    [by left | reflexivity | reflexivity | reflexivity].
Defined.

(** Any other dropdown value is dropped without a trace: the plugin, the
    persisted data and the host-call log are exactly as before, whatever
    state the plugin is in. *)
Theorem dropdown_onChange_rejects (value : string) (p : Plugin) :
  value ≠ "block" → value ≠ "bar" →
  dropdown_onChange value p = Some (tt, p).
Proof.
  intros Hb Hr. unfold dropdown_onChange.
  by rewrite (bool_decide_eq_false_2 _ Hb), (bool_decide_eq_false_2 _ Hr).
Qed.

Lemma dropdown_onChange_rejects_witness :
  dropdown_onChange "underline" sample_enabled_plugin
  = Some (tt, sample_enabled_plugin).
Proof.
  apply (dropdown_onChange_rejects "underline" sample_enabled_plugin);
    discriminate.
Defined.

(** ** What the interceptor does not look at *)

(** The handler's outcome depends on the event only through its key and
    its ctrl state, and on the view only through the presence of the mode
    marker: meta, alt and the other classes of the scroll DOM never
    matter. *)
Theorem keydown_depends_on (event1 event2 : KeyboardEvent.t)
    (view1 view2 : EditorView.t) :
  KeyboardEvent.key event1 = KeyboardEvent.key event2 →
  KeyboardEvent.ctrlKey event1 = KeyboardEvent.ctrlKey event2 →
  (blocking view1 ↔ blocking view2) →
  keydown event1 view1 = keydown event2 view2.
Proof.
  destruct event1 as [k1 c1 m1 a1], event2 as [k2 c2 m2 a2].
  simpl. intros -> -> Hb.
  destruct (decide (blocking view1)) as [H1|H1].
  - rewrite !keydown_blocking by tauto.
    by destruct m1, m2, a1, a2.
  - by rewrite !keydown_not_blocking by tauto.
Qed.

Lemma keydown_depends_on_witness :
  keydown (KeyboardEvent.mk "z" true true false) sample_view_normal
  = keydown ctrl_z (EditorView.mk ["cm-hx-block-cursor"]).
Proof.
  apply (keydown_depends_on (KeyboardEvent.mk "z" true true false) ctrl_z
           sample_view_normal (EditorView.mk ["cm-hx-block-cursor"]));
    [reflexivity | reflexivity |].
  split; intros _.
  - apply list_elem_of_here.
  - apply sample_view_normal_blocking.
Defined.

(** In Normal and Select mode Backspace and Enter are swallowed whatever
    modifiers are held: the unhandled-key test looks at the key alone. *)
Theorem keydown_swallows_unhandled_keys (event : KeyboardEvent.t)
    (view : EditorView.t) :
  blocking view →
  KeyboardEvent.key event = "Backspace" ∨ KeyboardEvent.key event = "Enter" →
  keydown event view = ([preventDefault; stopPropagation], true).
Proof.
  intros Hb Hk. rewrite (keydown_blocking _ _ Hb).
  rewrite (bool_decide_eq_true_2 (KeyboardEvent.key event ∈ UNHANDLED_KEYS));
    [done |].
  by apply UNHANDLED_KEYS_spec.
Qed.

Lemma keydown_swallows_unhandled_keys_witness :
  keydown (KeyboardEvent.mk "Backspace" true false true) sample_view_normal
  = ([preventDefault; stopPropagation], true).
Proof.
  apply (keydown_swallows_unhandled_keys
           (KeyboardEvent.mk "Backspace" true false true) sample_view_normal).
  - apply sample_view_normal_blocking.
  - left. reflexivity.
Defined.

(** Allow by default: an event whose key is neither Backspace nor Enter,
    and which is not z with ctrl held, passes untouched in every mode.
    Key identifiers are compared exactly, so an upper-case Z passes even
    with ctrl held. *)
Theorem keydown_passes_other_keys (event : KeyboardEvent.t)
    (view : EditorView.t) :
  KeyboardEvent.key event ≠ "Backspace" →
  KeyboardEvent.key event ≠ "Enter" →
  KeyboardEvent.key event ≠ "z" ∨ KeyboardEvent.ctrlKey event = false →
  keydown event view = ([], false).
Proof.
  intros Hb He Hz.
  destruct (decide (blocking view)) as [Hbl|Hbl];
    [| by apply keydown_not_blocking].
  rewrite (keydown_blocking _ _ Hbl).
  rewrite (bool_decide_eq_false_2 (KeyboardEvent.key event ∈ UNHANDLED_KEYS));
    last first.
  { rewrite UNHANDLED_KEYS_spec. tauto. }
  destruct (isUnhandledCombo event) eqn:Hc; [| done].
  apply isUnhandledCombo_spec in Hc as (combo & Hin & Hk & Hctrl & _).
  apply list_elem_of_singleton in Hin. subst combo. simpl in *.
  specialize (Hctrl true eq_refl).
  destruct Hz as [Hz|Hz]; [done | congruence].
Qed.

Lemma keydown_passes_other_keys_witness :
  keydown (KeyboardEvent.mk "Z" true false false) sample_view_normal
  = ([], false).
Proof.
  apply (keydown_passes_other_keys
           (KeyboardEvent.mk "Z" true false false) sample_view_normal).
  - discriminate.
  - discriminate.
  - left. discriminate.
Defined.

(** ** [onload] in closed form *)

Lemma onload_run defaults p :
  let m := assign_source (assign_source ∅ (Some defaults)) (data p) in
  let s := <[ENABLE := get m ENABLE]> m in
  let n := length (arrays p) in
  onload defaults p
  = Some (tt, mkPlugin (Some s) (Some n)
                (arrays p ++ [current_extensions s])
                (Some (JSON_roundtrip s))
                (host_extensions p ++ [n])
                (calls p ++ [ loadData; addSettingTab; saveData s;
                              registerEditorExtension n;
                              addCommand "toggle-keybindings"
                                "Toggle helix mode" ])).
Proof.
  intros m s n.
  destruct p as [st ex ar da he ca]. unfold onload.
  erewrite bind_Some by reflexivity.
  erewrite bind_Some by reflexivity.
  erewrite bind_Some by reflexivity.
  step read_setting_run.
  cbn [with_calls with_extensions with_arrays with_settings settings
       extensions arrays data host_extensions calls].
  erewrite bind_Some; last first.
  { eapply setEnabled_run; [done | done |].
    cbn. apply list_lookup_middle. done. }
  subst m s n.
  unfold bind, this_extensions, bind, gets, ret, host, modify, setEnabled_post,
    setEnabled_calls, with_calls, with_host_extensions, with_extensions,
    with_arrays, with_settings.
  cbn [settings extensions arrays data host_extensions calls].
  rewrite current_extensions_insert_enable.
  rewrite insert_app_r_alt by done.
  rewrite Nat.sub_diag.
  cbn [insert list_insert settings extensions arrays data host_extensions
       calls].
  by rewrite <- !app_assoc.
Qed.


(** Loading is stable: when the defaults carry a defined enable flag and
    neither they nor the persisted data hold [undefined], [onload] leaves
    the settings exactly as merged, and a [loadSettings] right after it
    reads the same settings back from what [onload] saved. *)
Theorem onload_settings_stable (DEFAULT_SETTINGS : JsObj) (p : Plugin) :
  is_Some (DEFAULT_SETTINGS !! ENABLE) →
  all_defined DEFAULT_SETTINGS →
  (∀ d, data p = Some d → all_defined d) →
  ∃ loaded again s,
    onload DEFAULT_SETTINGS p = Some (tt, loaded)
    ∧ settings loaded = Some s
    ∧ s = assign_source (assign_source ∅ (Some DEFAULT_SETTINGS)) (data p)
    ∧ data loaded = Some s
    ∧ loadSettings DEFAULT_SETTINGS loaded = Some (tt, again)
    ∧ settings again = Some s.
Proof.
  intros He HD Hd.
  set (m := assign_source (assign_source ∅ (Some DEFAULT_SETTINGS)) (data p)).
  assert (Hm_lookup : ∀ k,
    m !! k = if decide (k = "__proto__") then None
             else match data p with
                  | Some d => match d !! k with
                              | Some v => Some v
                              | None => DEFAULT_SETTINGS !! k
                              end
                  | None => DEFAULT_SETTINGS !! k
                  end).
  { intros k. subst m. rewrite assign_defaults.
    destruct (data p) as [d|]; unfold assign_source.
    - rewrite Object_assign_fresh by apply lookup_delete_eq.
      rewrite lookup_union. case_decide as Hk.
      + subst k. by rewrite !lookup_delete_eq.
      + rewrite !lookup_delete_ne by done.
        by destruct (d !! k), (DEFAULT_SETTINGS !! k).
    - case_decide as Hk.
      + subst k. apply lookup_delete_eq.
      + by apply lookup_delete_ne. }
  assert (Hproto : m !! "__proto__" = None).
  { rewrite Hm_lookup. by case_decide. }
  assert (Hdom : dom (delete "__proto__" DEFAULT_SETTINGS) ⊆ dom m).
  { intros k [v Hk]%elem_of_dom. apply elem_of_dom.
    apply lookup_delete_Some in Hk as [Hne Hk].
    rewrite Hm_lookup. rewrite decide_False by done.
    destruct (data p) as [d|]; [| by eexists].
    destruct (d !! k); by eexists. }
  assert (Hm : all_defined m).
  { intros k. rewrite Hm_lookup. case_decide; [done |].
    specialize (HD k).
    destruct (data p) as [d|] eqn:Hdata; [| done].
    specialize (Hd d eq_refl k). by destruct (d !! k). }
  assert (HmE : is_Some (m !! ENABLE)).
  { apply elem_of_dom, Hdom, elem_of_dom.
    by rewrite lookup_delete_ne by discriminate. }
  eexists _, _, m. split; [apply onload_run |].
  fold m. rewrite (insert_get_id _ _ HmE).
  rewrite (JSON_roundtrip_defined _ Hm).
  split; [done |]. split; [done |]. split; [done |].
  split; [apply loadSettings_run |].
  cbn [settings data with_settings with_calls].
  f_equal. by apply assign_over_defaults.
Qed.

Lemma sample_defaults_all_defined : all_defined sample_defaults.
Proof.
  intros k. unfold sample_defaults. rewrite lookup_insert.
  case_decide; [done |].
  rewrite lookup_singleton. by case_decide.
Qed.

Lemma sample_enabled_settings_all_defined : all_defined sample_enabled_settings.
Proof.
  intros k. unfold sample_enabled_settings. rewrite lookup_insert.
  case_decide; [done |].
  rewrite lookup_singleton. by case_decide.
Qed.

Lemma onload_settings_stable_witness :
  ∃ loaded again s,
    onload sample_defaults sample_enabled_plugin = Some (tt, loaded)
    ∧ settings loaded = Some s
    ∧ s = assign_source (assign_source ∅ (Some sample_defaults))
            (data sample_enabled_plugin)
    ∧ data loaded = Some s
    ∧ loadSettings sample_defaults loaded = Some (tt, again)
    ∧ settings again = Some s.
Proof.
  apply (onload_settings_stable sample_defaults sample_enabled_plugin).
  - by eexists.
  - apply sample_defaults_all_defined.
  - intros d [= <-]. apply sample_enabled_settings_all_defined.
Defined.

(** ** What every entry point preserves *)

Lemma setEnabled_calls_no_Notice value rl s :
  no_Notice (setEnabled_calls value rl false s).
Proof.
  unfold no_Notice, setEnabled_calls.
  destruct rl; cbn; repeat constructor.
Qed.

(** One lemma for all entry points: on a loaded plugin each succeeds,
    keeps the sharing invariant, keeps the cursor or sets an offered one,
    keeps the persisted data in sync, and only appends to the call log,
    without a notice when the entry point is quiet. *)
Lemma perform_effect a p r n h s :
  shared_array_inv r n h p → settings p = Some s →
  ∃ p' s' made,
    perform a p = Some (tt, p')
    ∧ shared_array_inv r n h p'
    ∧ settings p' = Some s'
    ∧ cursor_kept_or_offered s s'
    ∧ (data_in_sync p → data_in_sync p')
    ∧ calls p' = calls p ++ made
    ∧ (quiet a = true → no_Notice made).
Proof.
  intros Hinv Hs.
  destruct (perform_inv a p r n h Hinv) as (p' & Hrun & Hinv').
  exists p'.
  destruct Hinv as (Hr & Hh & Hn & s0 & Hs0 & Ha).
  assert (s0 = s) as -> by congruence.
  assert (Hkeep : ∀ v, cursor_kept_or_offered s (<[ENABLE := v]> s)).
  { intros v. left. apply get_insert_ne, ENABLE_ne_CURSOR. }
  assert (Hpost : ∀ value rl pr q,
    (pr = false ∨ quiet a = false) →
    ∃ s' made,
      settings (setEnabled_post value rl pr s r q) = Some s'
      ∧ cursor_kept_or_offered s s'
      ∧ (data_in_sync p → data_in_sync (setEnabled_post value rl pr s r q))
      ∧ calls (setEnabled_post value rl pr s r q) = calls q ++ made
      ∧ (quiet a = true → no_Notice made)).
  { intros value rl pr q Hq.
    exists (<[ENABLE := value]> s), (setEnabled_calls value rl pr s).
    split_and!; try done.
    intros Hqa. destruct Hq as [-> | Hq]; [| congruence].
    apply setEnabled_calls_no_Notice. }
  destruct a as [value rl pr | | | | value | value]; simpl in Hrun.
  - pose proof Hrun as Hrun'.
    rewrite (setEnabled_run _ _ _ _ _ _ _ Hs Hr Ha) in Hrun'.
    injection Hrun' as <-.
    destruct (Hpost value rl pr p) as (s' & made & H); [| (destruct H as (? & ? & ? & ? & ?); exists s', made; split_and!; done)].
    simpl. destruct pr; auto.
  - pose proof Hrun as Hrun'.
    rewrite (reload_run _ _ _ _ Hs Hr Ha) in Hrun'.
    injection Hrun' as <-.
    destruct (Hpost (get s ENABLE) true false p) as (s' & made & H);
      [by left | (destruct H as (? & ? & ? & ? & ?); exists s', made; split_and!; done)].
  - pose proof Hrun as Hrun'.
    rewrite (saveSettings_run _ _ Hs) in Hrun'.
    injection Hrun' as <-. exists s, [saveData s].
    split_and!; try done.
    + by left.
    + intros _. unfold data_in_sync. cbn. by rewrite Hs.
    + intros _. repeat constructor.
  - pose proof Hrun as Hrun'.
    rewrite (toggle_command_run _ _ _ _ Hs Hr Ha) in Hrun'.
    injection Hrun' as <-.
    destruct (Hpost (JBool (negb (truthy (get s ENABLE)))) true true p)
      as (s' & made & H); [by right | (destruct H as (? & ? & ? & ? & ?); exists s', made; split_and!; done)].
  - unfold toggle_onChange in Hrun.
    pose proof Hrun as Hrun'.
    rewrite (setEnabled_run _ _ _ _ _ _ _ Hs Hr Ha) in Hrun'.
    injection Hrun' as <-.
    destruct (Hpost (JBool value) true false p) as (s' & made & H);
      [by left | (destruct H as (? & ? & ? & ? & ?); exists s', made; split_and!; done)].
  - destruct (decide (value = "block" ∨ value = "bar")) as [Hv|Hv].
    + pose proof Hrun as Hrun'.
      rewrite (dropdown_onChange_run _ _ _ _ _ Hv Hs Hr Ha) in Hrun'.
      injection Hrun' as <-.
      exists (<[ENABLE := get s ENABLE]> (<[CURSOR := JStr value]> s)),
             (saveData (<[CURSOR := JStr value]> s)
              :: setEnabled_calls (get s ENABLE) true false
                   (<[CURSOR := JStr value]> s)).
      split_and!; try done.
      * right. rewrite get_insert_ne by apply ENABLE_ne_CURSOR.
        rewrite get_insert_eq. unfold offered_cursor.
        by destruct Hv as [-> | ->]; [left | right].
      * cbn. by rewrite <- app_assoc.
      * intros _. constructor; [done |]. apply setEnabled_calls_no_Notice.
    + pose proof Hrun as Hrun'.
      rewrite dropdown_onChange_rejects in Hrun' by tauto.
      injection Hrun' as <-. exists s, [].
      split_and!; try done.
      * by left.
      * by rewrite app_nil_r.
      * intros _. constructor.
Qed.

Lemma cursor_kept_or_offered_trans s1 s2 s3 :
  cursor_kept_or_offered s1 s2 → cursor_kept_or_offered s2 s3 →
  cursor_kept_or_offered s1 s3.
Proof.
  unfold cursor_kept_or_offered. intros [H12|H12] [H23|H23].
  - left. congruence.
  - by right.
  - right. by rewrite H23.
  - by right.
Qed.

Lemma perform_all_effect acts p r n h s :
  shared_array_inv r n h p → settings p = Some s →
  ∃ p' s' made,
    perform_all acts p = Some (tt, p')
    ∧ shared_array_inv r n h p'
    ∧ settings p' = Some s'
    ∧ cursor_kept_or_offered s s'
    ∧ (data_in_sync p → data_in_sync p')
    ∧ calls p' = calls p ++ made
    ∧ (Forall (λ a, quiet a = true) acts → no_Notice made).
Proof.
  revert p s. induction acts as [| a rest IH]; intros p s Hinv Hs.
  - exists p, s, []. split_and!; try done.
    + by left.
    + by rewrite app_nil_r.
    + intros _. constructor.
  - destruct (perform_effect a p r n h s Hinv Hs)
      as (p1 & s1 & made1 & Hrun1 & Hinv1 & Hs1 & Hc1 & Hd1 & Hl1 & Hq1).
    destruct (IH p1 s1 Hinv1 Hs1)
      as (p2 & s2 & made2 & Hrun2 & Hinv2 & Hs2 & Hc2 & Hd2 & Hl2 & Hq2).
    exists p2, s2, (made1 ++ made2).
    split; [simpl; by rewrite (bind_Some _ _ _ _ _ Hrun1) |].
    split; [done |]. split; [done |].
    split; [by eapply cursor_kept_or_offered_trans |].
    split; [tauto |].
    split; [by rewrite Hl2, Hl1, app_assoc |].
    intros [Ha Hrest]%Forall_cons. unfold no_Notice in *.
    apply Forall_app. split; [by apply Hq1 | by apply Hq2].
Qed.

Lemma onload_loaded defaults p :
  ∃ loaded s0,
    onload defaults p = Some (tt, loaded)
    ∧ shared_array_inv (length (arrays p)) (S (length (arrays p)))
        (host_extensions p ++ [length (arrays p)]) loaded
    ∧ settings loaded = Some s0
    ∧ data_in_sync loaded
    ∧ calls loaded
      = calls p ++ [ loadData; addSettingTab; saveData s0;
                     registerEditorExtension (length (arrays p));
                     addCommand "toggle-keybindings" "Toggle helix mode" ].
Proof.
  destruct (onload_inv defaults p) as (loaded & Hrun & Hinv).
  pose proof Hrun as Hrun'. rewrite onload_run in Hrun'.
  injection Hrun' as <-.
  eexists _, _. split_and!; done.
Qed.

(** ** From start-up through any sequence of entry points *)

(** The cursor setting only ever changes to block or bar: after [onload]
    and any sequence of entry points it is still what was loaded, or one
    of those two values. *)
Theorem cursor_stays_loaded_or_offered
    (DEFAULT_SETTINGS : JsObj) (p : Plugin) (acts : list Action) :
  ∃ loaded final s0 s,
    onload DEFAULT_SETTINGS p = Some (tt, loaded)
    ∧ perform_all acts loaded = Some (tt, final)
    ∧ settings loaded = Some s0
    ∧ settings final = Some s
    ∧ (get s CURSOR = get s0 CURSOR
       ∨ get s CURSOR = JStr "block"
       ∨ get s CURSOR = JStr "bar").
Proof.
  destruct (onload_loaded DEFAULT_SETTINGS p)
    as (loaded & s0 & Hload & Hinv & Hs0 & _).
  destruct (perform_all_effect acts loaded _ _ _ s0 Hinv Hs0)
    as (final & s & made & Hrun & _ & Hs & Hc & _).
  exists loaded, final, s0, s. split_and!; done.
Qed.

(** Nothing stays unsaved: after [onload] and any sequence of entry
    points the persisted data is what saving the current settings
    writes. *)
Theorem settings_always_saved
    (DEFAULT_SETTINGS : JsObj) (p : Plugin) (acts : list Action) :
  ∃ loaded final s,
    onload DEFAULT_SETTINGS p = Some (tt, loaded)
    ∧ perform_all acts loaded = Some (tt, final)
    ∧ settings final = Some s
    ∧ data final = Some (JSON_roundtrip s).
Proof.
  destruct (onload_loaded DEFAULT_SETTINGS p)
    as (loaded & s0 & Hload & Hinv & Hs0 & Hsync & _).
  destruct (perform_all_effect acts loaded _ _ _ s0 Hinv Hs0)
    as (final & s & made & Hrun & _ & Hs & _ & Hd & _).
  exists loaded, final, s. split_and!; try done.
  specialize (Hd Hsync). unfold data_in_sync in Hd. by rewrite Hs in Hd.
Qed.


Lemma no_Notice_filter made :
  no_Notice made → filter (λ c, is_Notice c = true) made = [].
Proof.
  induction 1 as [| c rest Hc _ IH]; [done |].
  rewrite filter_cons_False; [exact IH | congruence].
Qed.

(** Only the toggle command (or a direct call asking for it) shows a
    notice: from [onload] through any sequence of quiet entry points,
    every notice in the host-call log was there before start-up. *)
Theorem quiet_entry_points_show_no_notice
    (DEFAULT_SETTINGS : JsObj) (p : Plugin) (acts : list Action) :
  Forall (λ a, quiet a = true) acts →
  ∃ loaded final,
    onload DEFAULT_SETTINGS p = Some (tt, loaded)
    ∧ perform_all acts loaded = Some (tt, final)
    ∧ filter (λ c, is_Notice c = true) (calls final)
      = filter (λ c, is_Notice c = true) (calls p).
Proof.
  intros Hq.
  destruct (onload_loaded DEFAULT_SETTINGS p)
    as (loaded & s0 & Hload & Hinv & Hs0 & _ & Hcalls).
  destruct (perform_all_effect acts loaded _ _ _ s0 Hinv Hs0)
    as (final & s & made & Hrun & _ & _ & _ & _ & Hl & Hn).
  exists loaded, final. split_and!; try done.
  rewrite Hl, Hcalls, !filter_app.
  rewrite (no_Notice_filter _ (Hn Hq)). cbn. by rewrite !app_nil_r.
Qed.

Lemma quiet_entry_points_show_no_notice_witness :
  ∃ loaded final,
    onload sample_defaults fresh_plugin = Some (tt, loaded)
    ∧ perform_all [change_toggle true; change_dropdown "bar"; call_reload]
        loaded = Some (tt, final)
    ∧ filter (λ c, is_Notice c = true) (calls final)
      = filter (λ c, is_Notice c = true) (calls fresh_plugin).
Proof.
  apply (quiet_entry_points_show_no_notice sample_defaults fresh_plugin
           [change_toggle true; change_dropdown "bar"; call_reload]).
  repeat constructor.
Defined.

(** ** Two corner cases, run *)

(** A persisted ["__proto__"] key is not taken over by the merge. *)
Example loadSettings_proto_key :
  settings <$> (snd <$> loadSettings sample_defaults
                  (with_data (Some {[ "__proto__" := JStr "x";
                                      CURSOR := JStr "bar" ]})
                     fresh_plugin))
  = Some (Some {[ ENABLE := JBool false; CURSOR := JStr "bar" ]}).
Proof. vm_compute. reflexivity. Qed.

(** [saveSettings] before the settings are assigned goes through. *)
Example saveSettings_unassigned :
  saveSettings fresh_plugin
  = Some (tt, with_calls [saveData_undefined] fresh_plugin).
Proof. reflexivity. Qed.
